(** * Map canvas: viewport fitting and player markers

    A shallow embedding of the React/Konva front end of
    counter-strike-analytics:

    - [Frontend]      : frontend/src/components (MapCanvas with
                        fit-to-viewport scaling, PlayerMarker with
                        [scale], [offsetX], [offsetY] props);
    - [FrontendReact] : frontend/react/src/components/PlayerMarker.tsx
                        (PlayerMarker without scaling).  MapCanvas.tsx of
                        that directory is not embedded: its line 35 reads
                        [/>s] inside a parenthesised expression, so the
                        file is not a well-formed module and defines no
                        component;
    - [Hooks]         : the state cells of MapCanvas and the code that
                        reads and sets them, as computations that say
                        which cell they read and which they set;
    - [Doubles]       : [getScaleFactor] once more, evaluated in binary64.

    Numbers.  A TypeScript [number] is an IEEE double.  In [Frontend] it is
    modelled as an exact rational ([Q], compared with [==]): [+ - * /] and
    [Math.min] are the exact operations, without rounding, [NaN] or the
    infinities; the intrinsic width and height of a loaded image are meant
    to be positive, and every statement that depends on the value of a
    division says so.  A statement proved in [Frontend] is a statement of
    exact arithmetic; [Doubles] shows by evaluation what the rounding of
    the division and of the product can do to an equality or a bound of
    the fit.

    Components.  A function component is a function from its props (and,
    for MapCanvas, its hook state) to the element it returns; [null] is
    [None].  The two [useState] cells of MapCanvas are the record
    [MapCanvasState]; the [onload] and [resize] handlers are the
    transitions [onload] and [handleResize]. *)

From Stdlib Require Import QArith Qminmax Lqa List String.
From Stdlib Require PrimFloat.
Import ListNotations.

Local Open Scope Q_scope.

(** ** types/Player.ts *)

Inductive Team : Set := T | CT.

Definition Team_eqb (a b : Team) : bool :=
  match a, b with
  | T, T | CT, CT => true
  | _, _ => false
  end.

Module Player.
Record t : Set := mk
  { id : string;
    name : string;
    x : Q;
    y : Q;
    team : Team;
    alive : bool }.
End Player.

(** ** Konva nodes *)

(** The decoded bitmap handed to [<Image image=...>]: its source reference
    and intrinsic size. *)
Module HTMLImageElement.
Record t : Set := mk
  { src : string;
    width : Q;
    height : Q }.
End HTMLImageElement.

Module Circle.
Record t : Set := mk
  { x : Q;
    y : Q;
    radius : Q;
    fill : string }.

(** Same circle up to the value of its coordinates. *)
Definition equiv (c d : t) : Prop :=
  x c == x d /\ y c == y d /\ radius c == radius d /\ fill c = fill d.
End Circle.

(** Props of [<Image>]; a prop that is not passed is [None]. *)
Module Image.
Record t : Set := mk
  { image : HTMLImageElement.t;
    width : option Q;
    height : option Q;
    x : option Q;
    y : option Q }.
End Image.

Inductive KonvaNode : Set :=
| ImageNode (props : Image.t)
| CircleNode (props : Circle.t).

(** [<Stage width height><Layer>children</Layer></Stage>].  A child slot
    holding [None] is a [null] (or [false]) child: React draws nothing
    for it. *)
Module Stage.
Record t : Set := mk
  { width : option Q;
    height : option Q;
    layer : list (option KonvaNode) }.
End Stage.

(** What a frame shows: the nodes of the non-null slots, in order. *)
Fixpoint drawn (children : list (option KonvaNode)) : list KonvaNode :=
  match children with
  | [] => []
  | Some n :: rest => n :: drawn rest
  | None :: rest => drawn rest
  end.

Fixpoint circles (nodes : list KonvaNode) : list Circle.t :=
  match nodes with
  | [] => []
  | CircleNode c :: rest => c :: circles rest
  | ImageNode _ :: rest => circles rest
  end.

Fixpoint images (nodes : list KonvaNode) : list Image.t :=
  match nodes with
  | [] => []
  | ImageNode i :: rest => i :: images rest
  | CircleNode _ :: rest => images rest
  end.

Definition markers (frame : Stage.t) : list Circle.t :=
  circles (drawn (Stage.layer frame)).

Definition background (frame : Stage.t) : list Image.t :=
  images (drawn (Stage.layer frame)).

(** ** Hook state of MapCanvas *)

Module Dimensions.
Record t : Set := mk
  { width : Q;
    height : Q }.
End Dimensions.

Record MapCanvasState : Set := mkState
  { mapImage : option HTMLImageElement.t;
    dimensions : Dimensions.t }.

(** First render: [useState(null)] and
    [useState({ width: window.innerWidth, height: window.innerHeight })]. *)
Definition initialState (innerWidth innerHeight : Q) : MapCanvasState :=
  {| mapImage := None;
     dimensions := Dimensions.mk innerWidth innerHeight |}.

(** [img.onload = () => setMapImage(img)]. *)
Definition onload (img : HTMLImageElement.t) (st : MapCanvasState)
  : MapCanvasState :=
  {| mapImage := Some img;
     dimensions := dimensions st |}.

(** [handleResize]: [setDimensions] with the window's current inner size. *)
Definition handleResize (innerWidth innerHeight : Q) (st : MapCanvasState)
  : MapCanvasState :=
  {| mapImage := mapImage st;
     dimensions := Dimensions.mk innerWidth innerHeight |}.

Inductive Event : Set :=
| ImageReady (img : HTMLImageElement.t)
| Resize (innerWidth innerHeight : Q).

Definition step (st : MapCanvasState) (e : Event) : MapCanvasState :=
  match e with
  | ImageReady img => onload img st
  | Resize w h => handleResize w h st
  end.

Definition run (st : MapCanvasState) (es : list Event) : MapCanvasState :=
  fold_left step es st.

(** The two states of the composer. *)
Inductive Phase : Set := AwaitingAsset | Ready.

Definition phase (st : MapCanvasState) : Phase :=
  match mapImage st with
  | None => AwaitingAsset
  | Some _ => Ready
  end.

(** ** frontend/src/components *)

Module Frontend.

(** PlayerMarker.tsx *)
Definition PlayerMarker (player : Player.t) (scale offsetX offsetY : Q)
  : option KonvaNode :=
  let color :=
    if Team_eqb (Player.team player) CT then "#4da6ff"%string
    else "#ffb347"%string in
  if negb (Player.alive player) then None
  else
    Some (CircleNode
            {| Circle.x := Player.x player * scale + offsetX;
               Circle.y := Player.y player * scale + offsetY;
               Circle.radius := 5;
               Circle.fill := color |}).

Module ScaleFactor.
Record t : Set := mk
  { scale : Q;
    width : Q;
    height : Q }.

(** Same result up to the value of its fields. *)
Definition equiv (a b : t) : Prop :=
  scale a == scale b /\ width a == width b /\ height a == height b.
End ScaleFactor.

(** MapCanvas.tsx, [getScaleFactor]. *)
Definition getScaleFactor (st : MapCanvasState) : ScaleFactor.t :=
  match mapImage st with
  | None => {| ScaleFactor.scale := 1;
               ScaleFactor.width := 0;
               ScaleFactor.height := 0 |}
  | Some mapImage =>
      let padding := 40 in
      let availableWidth := Dimensions.width (dimensions st) - padding in
      let availableHeight := Dimensions.height (dimensions st) - padding in
      let scaleX := availableWidth / HTMLImageElement.width mapImage in
      let scaleY := availableHeight / HTMLImageElement.height mapImage in
      let scale := Qmin scaleX scaleY in
      {| ScaleFactor.scale := scale;
         ScaleFactor.width := HTMLImageElement.width mapImage * scale;
         ScaleFactor.height := HTMLImageElement.height mapImage * scale |}
  end.

(** MapCanvas.tsx, the element returned by [MapCanvas]; the [key] of a
    marker plays no part in what is drawn and is left out. *)
Definition MapCanvas (st : MapCanvasState) (players : list Player.t)
  : Stage.t :=
  let sf := getScaleFactor st in
  let scale := ScaleFactor.scale sf in
  let width := ScaleFactor.width sf in
  let height := ScaleFactor.height sf in
  {| Stage.width := Some (Dimensions.width (dimensions st));
     Stage.height := Some (Dimensions.height (dimensions st));
     Stage.layer :=
       match mapImage st with
       | Some mapImage =>
           Some (ImageNode
                   {| Image.image := mapImage;
                      Image.width := Some width;
                      Image.height := Some height;
                      Image.x :=
                        Some ((Dimensions.width (dimensions st) - width) / 2);
                      Image.y :=
                        Some ((Dimensions.height (dimensions st) - height) / 2)
                   |})
       | None => None
       end
       :: map (fun player =>
                 PlayerMarker player scale
                   ((Dimensions.width (dimensions st) - width) / 2)
                   ((Dimensions.height (dimensions st) - height) / 2))
              players |}.

(** The fit of lines 43-55 and the offsets of lines 68-69 and 78-79 as
    one function of the five quantities they read. *)
Module Transform.
Record t : Set := mk
  { scale : Q;
    renderedWidth : Q;
    renderedHeight : Q;
    offsetX : Q;
    offsetY : Q }.

(** Same transform up to the value of its fields. *)
Definition equiv (t u : t) : Prop :=
  scale t == scale u /\
  renderedWidth t == renderedWidth u /\
  renderedHeight t == renderedHeight u /\
  offsetX t == offsetX u /\
  offsetY t == offsetY u.
End Transform.

Definition fitToViewport
  (mapWidth mapHeight viewportWidth viewportHeight padding : Q)
  : Transform.t :=
  let availableWidth := viewportWidth - padding in
  let availableHeight := viewportHeight - padding in
  let scaleX := availableWidth / mapWidth in
  let scaleY := availableHeight / mapHeight in
  let scale := Qmin scaleX scaleY in
  let width := mapWidth * scale in
  let height := mapHeight * scale in
  {| Transform.scale := scale;
     Transform.renderedWidth := width;
     Transform.renderedHeight := height;
     Transform.offsetX := (viewportWidth - width) / 2;
     Transform.offsetY := (viewportHeight - height) / 2 |}.

(** The transform a render of [MapCanvas] works with. *)
Definition transform (st : MapCanvasState) : Transform.t :=
  let sf := getScaleFactor st in
  {| Transform.scale := ScaleFactor.scale sf;
     Transform.renderedWidth := ScaleFactor.width sf;
     Transform.renderedHeight := ScaleFactor.height sf;
     Transform.offsetX :=
       (Dimensions.width (dimensions st) - ScaleFactor.width sf) / 2;
     Transform.offsetY :=
       (Dimensions.height (dimensions st) - ScaleFactor.height sf) / 2 |}.

End Frontend.

(** ** frontend/react/src/components *)

Module FrontendReact.

(** PlayerMarker.tsx *)
Definition PlayerMarker (player : Player.t) : option KonvaNode :=
  let color :=
    if Team_eqb (Player.team player) CT then "#4da6ff"%string
    else "#ffb347"%string in
  if negb (Player.alive player) then None
  else
    Some (CircleNode
            {| Circle.x := Player.x player;
               Circle.y := Player.y player;
               Circle.radius := 5;
               Circle.fill := color |}).

End FrontendReact.

(** ** The hook cells of MapCanvas, with their reads and sets

    [const [mapImage, setMapImage] = useState(null)] and
    [const [dimensions, setDimensions] = useState(...)] give MapCanvas two
    cells.  A computation over them is a tree: it answers, or reads a cell
    and goes on with what it holds, or sets a cell and goes on.  A variable
    is read where the code first uses it. *)

Module Hooks.

Inductive Cell : Set := MapImageCell | DimensionsCell.

Inductive Access : Set :=
| Reads (c : Cell)
| Sets (c : Cell).


Inductive Hook (A : Type) : Type :=
| Ret (a : A)
| ReadMapImage (k : option HTMLImageElement.t -> Hook A)
| ReadDimensions (k : Dimensions.t -> Hook A)
| SetMapImage (img : HTMLImageElement.t) (k : Hook A)
| SetDimensions (d : Dimensions.t) (k : Hook A).

Arguments Ret {A} a.
Arguments ReadMapImage {A} k.
Arguments ReadDimensions {A} k.
Arguments SetMapImage {A} img k.
Arguments SetDimensions {A} d k.

Fixpoint bind {A B : Type} (h : Hook A) (f : A -> Hook B) : Hook B :=
  match h with
  | Ret a => f a
  | ReadMapImage k => ReadMapImage (fun v => bind (k v) f)
  | ReadDimensions k => ReadDimensions (fun v => bind (k v) f)
  | SetMapImage img k => SetMapImage img (bind k f)
  | SetDimensions d k => SetDimensions d (bind k f)
  end.

Definition readMapImage : Hook (option HTMLImageElement.t) :=
  ReadMapImage Ret.

Definition readDimensions : Hook Dimensions.t :=
  ReadDimensions Ret.

Definition setMapImage (img : HTMLImageElement.t) : Hook unit :=
  SetMapImage img (Ret tt).

Definition setDimensions (d : Dimensions.t) : Hook unit :=
  SetDimensions d (Ret tt).

(** Running a computation from a state of the cells: its answer, the state
    of the cells afterwards, and the accesses it made, in order. *)
Fixpoint exec {A : Type} (h : Hook A) (st : MapCanvasState)
  : A * MapCanvasState * list Access :=
  match h with
  | Ret a => (a, st, [])
  | ReadMapImage k =>
      let '(a, st', log) := exec (k (mapImage st)) st in
      (a, st', Reads MapImageCell :: log)
  | ReadDimensions k =>
      let '(a, st', log) := exec (k (dimensions st)) st in
      (a, st', Reads DimensionsCell :: log)
  | SetMapImage img k =>
      let '(a, st', log) :=
        exec k {| mapImage := Some img; dimensions := dimensions st |} in
      (a, st', Sets MapImageCell :: log)
  | SetDimensions d k =>
      let '(a, st', log) :=
        exec k {| mapImage := mapImage st; dimensions := d |} in
      (a, st', Sets DimensionsCell :: log)
  end.




(** MapCanvas.tsx, [getScaleFactor] (lines 40-56). *)
Definition getScaleFactor : Hook Frontend.ScaleFactor.t :=
  bind readMapImage (fun mapImage =>
  match mapImage with
  | None =>
      Ret {| Frontend.ScaleFactor.scale := 1;
             Frontend.ScaleFactor.width := 0;
             Frontend.ScaleFactor.height := 0 |}
  | Some mapImage =>
      let padding := 40 in
      bind readDimensions (fun dimensions =>
      let availableWidth := Dimensions.width dimensions - padding in
      let availableHeight := Dimensions.height dimensions - padding in
      let scaleX := availableWidth / HTMLImageElement.width mapImage in
      let scaleY := availableHeight / HTMLImageElement.height mapImage in
      let scale := Qmin scaleX scaleY in
      Ret {| Frontend.ScaleFactor.scale := scale;
             Frontend.ScaleFactor.width :=
               HTMLImageElement.width mapImage * scale;
             Frontend.ScaleFactor.height :=
               HTMLImageElement.height mapImage * scale |})
  end).

(** MapCanvas.tsx, [img.onload] (line 24). *)
Definition onload (img : HTMLImageElement.t) : Hook unit :=
  setMapImage img.

(** MapCanvas.tsx, [handleResize] (lines 28-33). *)
Definition handleResize (innerWidth innerHeight : Q) : Hook unit :=
  setDimensions (Dimensions.mk innerWidth innerHeight).


End Hooks.


(** ** [getScaleFactor] in binary64

    The same lines 40-56, with [number] as the IEEE double it is:
    [- / *] round to nearest, and [Math.min] answers [NaN] if either
    argument is [NaN] and takes -0 to be less than +0. *)

Module Doubles.

Import PrimFloat.
Local Open Scope float_scope.

Definition Math_min (x y : float) : float :=
  if is_nan x then x
  else if is_nan y then y
  else if x <? y then x
  else if y <? x then y
  else if get_sign x then x else y.

Module Extent.
Record t : Set := mk
  { width : float;
    height : float }.
End Extent.

Module ScaleFactor.
Record t : Set := mk
  { scale : float;
    width : float;
    height : float }.
End ScaleFactor.

Definition getScaleFactor (mapImage : option Extent.t) (dimensions : Extent.t)
  : ScaleFactor.t :=
  match mapImage with
  | None => {| ScaleFactor.scale := 1;
               ScaleFactor.width := 0;
               ScaleFactor.height := 0 |}
  | Some mapImage =>
      let padding := 40 in
      let availableWidth := Extent.width dimensions - padding in
      let availableHeight := Extent.height dimensions - padding in
      let scaleX := availableWidth / Extent.width mapImage in
      let scaleY := availableHeight / Extent.height mapImage in
      let scale := Math_min scaleX scaleY in
      {| ScaleFactor.scale := scale;
         ScaleFactor.width := Extent.width mapImage * scale;
         ScaleFactor.height := Extent.height mapImage * scale |}
  end.


End Doubles.

(** ** App.tsx *)

Definition mockPlayers : list Player.t :=
  [ Player.mk "1" "s1mple" 400 300 T true;
    Player.mk "2" "device" 450 350 CT true ].

(** ** Markers and sample states used in the statements *)

(** The circle of a player drawn at a given screen position: radius 5, the
    colour of the player's team. *)
Definition markerAt (player : Player.t) (screenX screenY : Q) : Circle.t :=
  {| Circle.x := screenX;
     Circle.y := screenY;
     Circle.radius := 5;
     Circle.fill :=
       if Team_eqb (Player.team player) CT then "#4da6ff"%string
       else "#ffb347"%string |}.

(** A 1024 x 1024 overview of the map. *)
Definition dust2 : HTMLImageElement.t :=
  HTMLImageElement.mk "dust2.png" 1024 1024.

(** The same overview under another reference. *)
Definition dust2_webp : HTMLImageElement.t :=
  HTMLImageElement.mk "Cs2_dust2_overview.webp" 1024 1024.


(** A 1000 x 800 window, before and after the image has loaded. *)
Definition awaiting1000x800 : MapCanvasState := initialState 1000 800.
Definition ready1000x800 : MapCanvasState := onload dust2 awaiting1000x800.

(** A window only 20 wide, narrower than the padding. *)
Definition ready20x800 : MapCanvasState :=
  onload dust2 (initialState 20 800).


(** A dead player at the position of the first mock player. *)
Definition deadPlayer : Player.t :=
  Player.mk "3" "ghost" 400 300 T false.


Definition mockPlayers_2x : list Player.t :=
  [ Player.mk "1" "s1mple" 800 600 T true;
    Player.mk "2" "device" 900 700 CT true ].

(** A window exactly as wide as the padding, and a larger window. *)
Definition ready40x800 : MapCanvasState :=
  onload dust2 (initialState 40 800).

Definition ready1200x900 : MapCanvasState :=
  onload dust2 (initialState 1200 900).

(** The two mock players, one by one. *)
Definition s1mple : Player.t := Player.mk "1" "s1mple" 400 300 T true.
Definition device : Player.t := Player.mk "2" "device" 450 350 CT true.

(** Events of one kind. *)
Definition isImageReady (e : Event) : bool :=
  match e with ImageReady _ => true | Resize _ _ => false end.

Definition isResize (e : Event) : bool :=
  match e with Resize _ _ => true | ImageReady _ => false end.


(** A circle moved from map space to screen space. *)
Definition place (scale offsetX offsetY : Q) (c : Circle.t) : Circle.t :=
  {| Circle.x := Circle.x c * scale + offsetX;
     Circle.y := Circle.y c * scale + offsetY;
     Circle.radius := Circle.radius c;
     Circle.fill := Circle.fill c |}.



(** The circle of the non-scaling PlayerMarker moved by a transform, or
    nothing where there is none. *)
Definition placeNode (scale offsetX offsetY : Q) (n : option KonvaNode)
  : option KonvaNode :=
  match n with
  | Some (CircleNode c) => Some (CircleNode (place scale offsetX offsetY c))
  | Some (ImageNode i) => Some (ImageNode i)
  | None => None
  end.



(** * Properties *)

Import Frontend.

(** ** Arithmetic of the fit *)

Section Fit.

Variables mapWidth mapHeight viewportWidth viewportHeight padding : Q.

Let scaleX := (viewportWidth - padding) / mapWidth.
Let scaleY := (viewportHeight - padding) / mapHeight.

Lemma fit_scale :
  Transform.scale
    (fitToViewport mapWidth mapHeight viewportWidth viewportHeight padding)
  = Qmin scaleX scaleY.
Proof. reflexivity. Qed.

Lemma fit_renderedWidth :
  Transform.renderedWidth
    (fitToViewport mapWidth mapHeight viewportWidth viewportHeight padding)
  = mapWidth * Qmin scaleX scaleY.
Proof. reflexivity. Qed.

Lemma fit_renderedHeight :
  Transform.renderedHeight
    (fitToViewport mapWidth mapHeight viewportWidth viewportHeight padding)
  = mapHeight * Qmin scaleX scaleY.
Proof. reflexivity. Qed.

Lemma scaleX_exact :
  0 < mapWidth -> mapWidth * scaleX == viewportWidth - padding.
Proof. intros Hw. unfold scaleX. field. lra. Qed.

Lemma scaleY_exact :
  0 < mapHeight -> mapHeight * scaleY == viewportHeight - padding.
Proof. intros Hh. unfold scaleY. field. lra. Qed.

End Fit.

(** [getScaleFactor] and the offsets of [MapCanvas], once the image is
    there, are [fitToViewport] at the image's size, the window's size and a
    padding of 40. *)
Lemma transform_ready (st : MapCanvasState) (img : HTMLImageElement.t) :
  mapImage st = Some img ->
  transform st =
  fitToViewport (HTMLImageElement.width img) (HTMLImageElement.height img)
    (Dimensions.width (dimensions st)) (Dimensions.height (dimensions st)) 40.
Proof.
  intros Himg. unfold transform, getScaleFactor. rewrite Himg. reflexivity.
Qed.

Lemma transform_awaiting (st : MapCanvasState) :
  mapImage st = None ->
  transform st =
  {| Transform.scale := 1;
     Transform.renderedWidth := 0;
     Transform.renderedHeight := 0;
     Transform.offsetX := (Dimensions.width (dimensions st) - 0) / 2;
     Transform.offsetY := (Dimensions.height (dimensions st) - 0) / 2 |}.
Proof.
  intros Himg. unfold transform, getScaleFactor. rewrite Himg. reflexivity.
Qed.

(** ** The fitted rectangle *)

Module Rounding.

Import PrimFloat.
Local Open Scope float_scope.


End Rounding.





(** ** Viewports smaller than the padding *)

Lemma pos_mul_le0 (m s : Q) : 0 < m -> (m * s <= 0 <-> s <= 0).
Proof. intros Hm. split; intros H; nra. Qed.

Lemma pos_mul_lt0 (m s : Q) : 0 < m -> (m * s < 0 <-> s < 0).
Proof. intros Hm. split; intros H; nra. Qed.

Lemma pos_mul_ge0 (m s : Q) : 0 < m -> (0 <= m * s <-> 0 <= s).
Proof. intros Hm. split; intros H; nra. Qed.

Lemma pos_mul_eq0 (m s : Q) : 0 < m -> (m * s == 0 <-> s == 0).
Proof. intros Hm. split; intros H; nra. Qed.

(** C5, as amended.  With a map of positive width and height and no room
    left after the padding on some axis, the fit is still computed: its
    scale, width and height are all at most 0.  Width and height are both 0
    exactly when no axis has less than no room; if an axis has less than no
    room, both are below 0. *)
Theorem fit_without_room
  (mapWidth mapHeight viewportWidth viewportHeight padding : Q) :
  0 < mapWidth -> 0 < mapHeight ->
  viewportWidth - padding <= 0 \/ viewportHeight - padding <= 0 ->
  let t :=
    fitToViewport mapWidth mapHeight viewportWidth viewportHeight padding in
  Transform.scale t <= 0 /\
  Transform.renderedWidth t <= 0 /\
  Transform.renderedHeight t <= 0 /\
  (Transform.renderedWidth t == 0 /\ Transform.renderedHeight t == 0 <->
   0 <= viewportWidth - padding /\ 0 <= viewportHeight - padding) /\
  (viewportWidth - padding < 0 \/ viewportHeight - padding < 0 ->
   Transform.renderedWidth t < 0 /\ Transform.renderedHeight t < 0).
Proof.
  intros Hw Hh Hroom t. subst t.
  rewrite fit_scale, fit_renderedWidth, fit_renderedHeight.
  pose proof (scaleX_exact mapWidth viewportWidth padding Hw) as Ex.
  pose proof (scaleY_exact mapHeight viewportHeight padding Hh) as Ey.
  set (sx := (viewportWidth - padding) / mapWidth) in *.
  set (sy := (viewportHeight - padding) / mapHeight) in *.
  rewrite <- Ex, <- Ey in Hroom |- *.
  rewrite !pos_mul_le0, !pos_mul_lt0, !pos_mul_ge0, !pos_mul_eq0 by assumption.
  rewrite !pos_mul_le0 in Hroom by assumption.
  assert (Hs : Qmin sx sy <= 0) by (apply Q.min_le_iff; exact Hroom).
  split; [exact Hs |]. split; [exact Hs |]. split; [exact Hs |]. split.
  - split.
    + intros [E _]. apply Q.min_glb_iff. rewrite E. apply Qle_refl.
    + intros Hge. apply Q.min_glb_iff in Hge.
      assert (E : Qmin sx sy == 0) by (apply Qle_antisym; assumption).
      split; exact E.
  - intros Hneg.
    assert (L : Qmin sx sy < 0) by (apply Q.min_lt_iff; exact Hneg).
    split; exact L.
Qed.

Lemma fit_without_room_witness :
  let t := transform ready20x800 in
  0 < HTMLImageElement.width dust2 /\ 0 < HTMLImageElement.height dust2 /\
  Dimensions.width (dimensions ready20x800) - 40 <= 0 /\
  Transform.scale t <= 0 /\
  Transform.renderedWidth t < 0 /\ Transform.renderedHeight t < 0.
Proof.
  assert (Hw : 0 < 1024) by reflexivity.
  assert (Hroom : 20 - 40 <= 0 \/ 800 - 40 <= 0) by (left; discriminate).
  destruct (fit_without_room 1024 1024 20 800 40 Hw Hw Hroom)
    as (Hs & _ & _ & _ & Hneg).
  split; [exact Hw |]. split; [exact Hw |]. split; [discriminate |].
  split; [exact Hs |].
  apply Hneg. left. reflexivity.
Defined.

(** C5, as stated, fails.  In a window 20 wide the room left by the padding
    of 40 is -20; the fit of the 1024 x 1024 map is then -20 wide and -20
    high, not 0 by 0. *)
Lemma narrow_window_fit_is_negative :
  transform ready20x800 = fitToViewport 1024 1024 20 800 40 /\
  20 - 40 <= 0 /\
  Transform.renderedWidth (fitToViewport 1024 1024 20 800 40) == -20 /\
  Transform.renderedHeight (fitToViewport 1024 1024 20 800 40) == -20 /\
  ~ (Transform.renderedWidth (fitToViewport 1024 1024 20 800 40) == 0 /\
     Transform.renderedHeight (fitToViewport 1024 1024 20 800 40) == 0).
Proof.
  split; [reflexivity |]. split; [discriminate |].
  split; [reflexivity |]. split; [reflexivity |].
  intros [Hw _]. discriminate Hw.
Qed.

(** ** Worked example: 1024 x 1024 map in a 1000 x 800 window *)

Example scenario_transform :
  Transform.equiv (transform ready1000x800)
    {| Transform.scale := 760 / 1024;
       Transform.renderedWidth := 760;
       Transform.renderedHeight := 760;
       Transform.offsetX := 120;
       Transform.offsetY := 20 |}.
Proof. repeat split. Qed.

Example scenario_marker :
  Forall2 Circle.equiv
    (markers (MapCanvas ready1000x800 (deadPlayer :: mockPlayers)))
    [ {| Circle.x := 416.875; Circle.y := 242.65625;
         Circle.radius := 5; Circle.fill := "#ffb347" |};
      {| Circle.x := 453.984375; Circle.y := 279.765625;
         Circle.radius := 5; Circle.fill := "#4da6ff" |} ].
Proof. repeat constructor; reflexivity. Qed.

(** ** What a frame draws *)

Lemma PlayerMarker_cases (player : Player.t) (scale offsetX offsetY : Q) :
  PlayerMarker player scale offsetX offsetY =
  if Player.alive player
  then Some (CircleNode
               (markerAt player
                  (Player.x player * scale + offsetX)
                  (Player.y player * scale + offsetY)))
  else None.
Proof. unfold PlayerMarker. now destruct (Player.alive player). Qed.

Lemma simple_PlayerMarker_cases (player : Player.t) :
  FrontendReact.PlayerMarker player =
  if Player.alive player
  then Some (CircleNode
               (markerAt player (Player.x player) (Player.y player)))
  else None.
Proof. unfold FrontendReact.PlayerMarker. now destruct (Player.alive player). Qed.

Section MarkerSlots.

Variable render : Player.t -> option KonvaNode.
Variable circle : Player.t -> Circle.t.
Hypothesis render_cases :
  forall player,
    render player =
    if Player.alive player then Some (CircleNode (circle player)) else None.

Lemma circles_of_slots (players : list Player.t) :
  circles (drawn (map render players))
  = map circle (filter Player.alive players).
Proof.
  induction players as [| p ps IH]; simpl; [reflexivity |].
  rewrite render_cases.
  destruct (Player.alive p); simpl; now rewrite IH.
Qed.

Lemma images_of_slots (players : list Player.t) :
  images (drawn (map render players)) = [].
Proof.
  induction players as [| p ps IH]; simpl; [reflexivity |].
  rewrite render_cases.
  destruct (Player.alive p); simpl; exact IH.
Qed.

End MarkerSlots.

Lemma markers_MapCanvas (st : MapCanvasState) (players : list Player.t) :
  markers (MapCanvas st players) =
  map (fun player =>
         markerAt player
           (Player.x player * Transform.scale (transform st)
            + Transform.offsetX (transform st))
           (Player.y player * Transform.scale (transform st)
            + Transform.offsetY (transform st)))
      (filter Player.alive players).
Proof.
  unfold markers, MapCanvas, transform. cbn [Stage.layer].
  set (slots := map _ players).
  destruct (mapImage st); cbn [drawn circles];
    subst slots; apply circles_of_slots; intros p; apply PlayerMarker_cases.
Qed.

Lemma background_MapCanvas (st : MapCanvasState) (players : list Player.t) :
  background (MapCanvas st players) =
  match mapImage st with
  | Some img =>
      [ {| Image.image := img;
           Image.width := Some (Transform.renderedWidth (transform st));
           Image.height := Some (Transform.renderedHeight (transform st));
           Image.x := Some (Transform.offsetX (transform st));
           Image.y := Some (Transform.offsetY (transform st)) |} ]
  | None => []
  end.
Proof.
  unfold background, MapCanvas, transform. cbn [Stage.layer].
  set (slots := map _ players).
  assert (E : images (drawn slots) = []).
  { subst slots. eapply images_of_slots. intros p. apply PlayerMarker_cases. }
  destruct (mapImage st); cbn [drawn images]; now rewrite E.
Qed.

(** ** Centring *)

(** C3.  In every render the offsets are half of what the fitted rectangle
    leaves of the window, so the margins on either side are equal; the
    background image, when drawn, sits at these offsets, and every marker is
    placed with the same offsets. *)
Theorem offsets_centre_the_map (st : MapCanvasState) (players : list Player.t) :
  let t := transform st in
  let viewportWidth := Dimensions.width (dimensions st) in
  let viewportHeight := Dimensions.height (dimensions st) in
  Transform.offsetX t = (viewportWidth - Transform.renderedWidth t) / 2 /\
  Transform.offsetY t = (viewportHeight - Transform.renderedHeight t) / 2 /\
  Transform.offsetX t + Transform.renderedWidth t + Transform.offsetX t
  == viewportWidth /\
  Transform.offsetY t + Transform.renderedHeight t + Transform.offsetY t
  == viewportHeight /\
  background (MapCanvas st players) =
  match mapImage st with
  | Some img =>
      [ {| Image.image := img;
           Image.width := Some (Transform.renderedWidth t);
           Image.height := Some (Transform.renderedHeight t);
           Image.x := Some (Transform.offsetX t);
           Image.y := Some (Transform.offsetY t) |} ]
  | None => []
  end /\
  markers (MapCanvas st players) =
  map (fun player =>
         markerAt player
           (Player.x player * Transform.scale t + Transform.offsetX t)
           (Player.y player * Transform.scale t + Transform.offsetY t))
      (filter Player.alive players).
Proof.
  intros t viewportWidth viewportHeight. subst t viewportWidth viewportHeight.
  split; [reflexivity |]. split; [reflexivity |].
  split; [unfold transform; cbn [Transform.offsetX Transform.renderedWidth]; field |].
  split; [unfold transform; cbn [Transform.offsetY Transform.renderedHeight]; field |].
  split; [apply background_MapCanvas | apply markers_MapCanvas].
Qed.

(** ** Map space to screen space *)

(** C4.  The marker of a living player is drawn at
    (x * scale + offsetX, y * scale + offsetY), whatever the player's
    position and whatever the transform: the result is not checked against
    any bound and not clamped. *)
Theorem marker_screen_position
  (player : Player.t) (scale offsetX offsetY : Q) :
  PlayerMarker player scale offsetX offsetY =
  if Player.alive player
  then Some (CircleNode
               {| Circle.x := Player.x player * scale + offsetX;
                  Circle.y := Player.y player * scale + offsetY;
                  Circle.radius := 5;
                  Circle.fill :=
                    match Player.team player with
                    | CT => "#4da6ff"%string
                    | T => "#ffb347"%string
                    end |})
  else None.
Proof.
  rewrite PlayerMarker_cases. unfold markerAt.
  now destruct (Player.alive player), (Player.team player).
Qed.

(** Every point of the plane, inside the window or not, is the marker
    position of some map point, as long as the scale is not 0. *)
Lemma marker_reaches_any_point
  (scale offsetX offsetY screenX screenY : Q) :
  ~ scale == 0 ->
  exists mapX mapY,
    forall id name team,
      exists c,
        PlayerMarker (Player.mk id name mapX mapY team true)
          scale offsetX offsetY = Some (CircleNode c) /\
        Circle.x c == screenX /\ Circle.y c == screenY.
Proof.
  intros Hs.
  exists ((screenX - offsetX) / scale), ((screenY - offsetY) / scale).
  intros id name team. eexists. split; [reflexivity |].
  cbn [Circle.x Circle.y Player.x Player.y]. split; field; exact Hs.
Qed.

(** ** Liveness *)

(** C6.  A player whose [alive] flag is false gets no marker from either
    PlayerMarker; wherever the player stands in the list given to
    MapCanvas, the frame has the markers it would have without that player,
    and it has as many markers as the list has living players. *)
Theorem dead_players_have_no_marker
  (st : MapCanvasState) (before after : list Player.t) (player : Player.t)
  (scale offsetX offsetY : Q) :
  Player.alive player = false ->
  PlayerMarker player scale offsetX offsetY = None /\
  FrontendReact.PlayerMarker player = None /\
  markers (MapCanvas st (before ++ player :: after))
  = markers (MapCanvas st (before ++ after)) /\
  List.length (markers (MapCanvas st (before ++ player :: after)))
  = List.length (filter Player.alive (before ++ after)).
Proof.
  intros Hdead.
  rewrite PlayerMarker_cases, simple_PlayerMarker_cases, Hdead.
  rewrite !markers_MapCanvas.
  rewrite !filter_app. cbn [filter]. rewrite Hdead, !List.length_map.
  repeat split.
Qed.

Lemma dead_players_have_no_marker_witness :
  Player.alive deadPlayer = false /\
  PlayerMarker deadPlayer (760 / 1024) 120 20 = None /\
  FrontendReact.PlayerMarker deadPlayer = None /\
  markers (MapCanvas ready1000x800 (mockPlayers ++ deadPlayer :: mockPlayers))
  = markers (MapCanvas ready1000x800 (mockPlayers ++ mockPlayers)) /\
  List.length
    (markers (MapCanvas ready1000x800
                (mockPlayers ++ deadPlayer :: mockPlayers))) = 4%nat.
Proof.
  split; [reflexivity |].
  apply (dead_players_have_no_marker ready1000x800 mockPlayers mockPlayers
           deadPlayer (760 / 1024) 120 20).
  reflexivity.
Defined.

(** ** Before and after the image is ready *)

Lemma step_keeps_ready (st : MapCanvasState) (e : Event) :
  phase st = Ready -> phase (step st e) = Ready.
Proof.
  unfold phase. destruct e as [img | w h]; cbn; [reflexivity |].
  now destruct (mapImage st).
Qed.

(** Once the image is there it stays: no event leads back from [Ready]. *)
Lemma run_keeps_ready (es : list Event) (st : MapCanvasState) :
  phase st = Ready -> phase (run st es) = Ready.
Proof.
  revert st. induction es as [| e es IH]; intros st Hst; [exact Hst |].
  cbn [run fold_left]. apply IH. now apply step_keeps_ready.
Qed.

(** A resize changes the window's size and nothing else. *)
Lemma handleResize_keeps_image (w h : Q) (st : MapCanvasState) :
  mapImage (handleResize w h st) = mapImage st /\
  dimensions (handleResize w h st) = Dimensions.mk w h.
Proof. split; reflexivity. Qed.

Lemma phase_awaiting (st : MapCanvasState) :
  phase st = AwaitingAsset <-> mapImage st = None.
Proof. unfold phase. destruct (mapImage st); split; congruence. Qed.

(** C7, as stated, fails.  In a 1000 x 800 window whose image has not
    loaded, the frame for the two mock players has no background image and
    two markers, at (900, 700) and (950, 750). *)
Lemma awaiting_frame_has_markers :
  phase awaiting1000x800 = AwaitingAsset /\
  background (MapCanvas awaiting1000x800 mockPlayers) = [] /\
  Forall2 Circle.equiv
    (markers (MapCanvas awaiting1000x800 mockPlayers))
    [ {| Circle.x := 900; Circle.y := 700;
         Circle.radius := 5; Circle.fill := "#ffb347" |};
      {| Circle.x := 950; Circle.y := 750;
         Circle.radius := 5; Circle.fill := "#4da6ff" |} ] /\
  markers (MapCanvas awaiting1000x800 mockPlayers) <> [].
Proof.
  split; [reflexivity |]. split; [reflexivity |].
  split; [repeat constructor; reflexivity | discriminate].
Qed.

(** C7, as amended.  While the image has not loaded, a frame has no
    background image and one marker for each living player, placed with
    scale 1 and offsets of half the window; once the image is ready, the
    next frame for the same players has the background image and one marker
    for each living player, placed with the transform fitted to the image. *)
Theorem frames_before_and_after_image_ready
  (st : MapCanvasState) (players : list Player.t) (img : HTMLImageElement.t) :
  phase st = AwaitingAsset ->
  let viewportWidth := Dimensions.width (dimensions st) in
  let viewportHeight := Dimensions.height (dimensions st) in
  let fitted :=
    fitToViewport (HTMLImageElement.width img) (HTMLImageElement.height img)
      viewportWidth viewportHeight 40 in
  background (MapCanvas st players) = [] /\
  markers (MapCanvas st players) =
  map (fun player =>
         markerAt player
           (Player.x player * 1 + (viewportWidth - 0) / 2)
           (Player.y player * 1 + (viewportHeight - 0) / 2))
      (filter Player.alive players) /\
  phase (step st (ImageReady img)) = Ready /\
  background (MapCanvas (step st (ImageReady img)) players) =
  [ {| Image.image := img;
       Image.width := Some (Transform.renderedWidth fitted);
       Image.height := Some (Transform.renderedHeight fitted);
       Image.x := Some (Transform.offsetX fitted);
       Image.y := Some (Transform.offsetY fitted) |} ] /\
  markers (MapCanvas (step st (ImageReady img)) players) =
  map (fun player =>
         markerAt player
           (Player.x player * Transform.scale fitted
            + Transform.offsetX fitted)
           (Player.y player * Transform.scale fitted
            + Transform.offsetY fitted))
      (filter Player.alive players).
Proof.
  intros Hphase viewportWidth viewportHeight fitted.
  apply phase_awaiting in Hphase.
  rewrite !background_MapCanvas, !markers_MapCanvas.
  rewrite (transform_awaiting st Hphase), Hphase.
  assert (Hready : mapImage (step st (ImageReady img)) = Some img)
    by reflexivity.
  rewrite (transform_ready _ img Hready), Hready.
  repeat split.
Qed.

Lemma frames_before_and_after_image_ready_witness :
  phase awaiting1000x800 = AwaitingAsset /\
  background (MapCanvas awaiting1000x800 mockPlayers) = [] /\
  List.length (markers (MapCanvas awaiting1000x800 mockPlayers)) = 2%nat /\
  List.length (background (MapCanvas ready1000x800 mockPlayers)) = 1%nat /\
  List.length (markers (MapCanvas ready1000x800 mockPlayers)) = 2%nat.
Proof.
  assert (Hphase : phase awaiting1000x800 = AwaitingAsset) by reflexivity.
  destruct (frames_before_and_after_image_ready
              awaiting1000x800 mockPlayers dust2 Hphase)
    as (Hbg & Hm & _ & Hbg' & Hm').
  split; [exact Hphase |]. split; [exact Hbg |].
  split; [rewrite Hm; reflexivity |].
  split.
  - change ready1000x800 with (step awaiting1000x800 (ImageReady dust2)).
    rewrite Hbg'. reflexivity.
  - change ready1000x800 with (step awaiting1000x800 (ImageReady dust2)).
    rewrite Hm'. reflexivity.
Defined.

(** ** Determinism *)

Lemma fitToViewport_compat
  (mapWidth mapHeight viewportWidth viewportHeight padding : Q)
  (mapWidth' mapHeight' viewportWidth' viewportHeight' padding' : Q) :
  mapWidth == mapWidth' -> mapHeight == mapHeight' ->
  viewportWidth == viewportWidth' -> viewportHeight == viewportHeight' ->
  padding == padding' ->
  Transform.equiv
    (fitToViewport mapWidth mapHeight viewportWidth viewportHeight padding)
    (fitToViewport mapWidth' mapHeight' viewportWidth' viewportHeight'
       padding').
Proof.
  intros Hw Hh Hvw Hvh Hp. unfold Transform.equiv, fitToViewport.
  cbn [Transform.scale Transform.renderedWidth Transform.renderedHeight
       Transform.offsetX Transform.offsetY].
  rewrite Hw, Hh, Hvw, Hvh, Hp. repeat split; reflexivity.
Qed.



(** The handlers, for their part, set a cell each: [Hooks.onload] and
    [Hooks.handleResize] are the transitions [onload] and [handleResize]. *)
Lemma exec_handlers
  (img : HTMLImageElement.t) (w h : Q) (st : MapCanvasState) :
  Hooks.exec (Hooks.onload img) st
  = (tt, onload img st, [Hooks.Sets Hooks.MapImageCell]) /\
  Hooks.exec (Hooks.handleResize w h) st
  = (tt, handleResize w h st, [Hooks.Sets Hooks.DimensionsCell]).
Proof. split; reflexivity. Qed.




(** ** The two PlayerMarker components *)

(** C9.  The PlayerMarker without scaling props draws, for every player,
    what the PlayerMarker with scaling props draws at scale 1 and offsets
    0: nothing for a dead player, and for a living one a circle at the same
    position, of the same radius and the same colour. *)
Theorem simple_marker_is_unit_scale_marker (player : Player.t) :
  FrontendReact.PlayerMarker player = PlayerMarker player 1 0 0.
Proof.
  unfold FrontendReact.PlayerMarker, PlayerMarker.
  destruct (Player.alive player); cbn [negb]; [| reflexivity].
  destruct (Player.x player) as [xn xd], (Player.y player) as [yn yd].
  unfold Qplus, Qmult. cbn [Qnum Qden].
  now rewrite !Z.mul_1_r, !Pos.mul_1_r, !Z.add_0_r.
Qed.

(** ** Rendering without the image *)

Lemma Forall2_map_pointwise
  (f g : Player.t -> Circle.t) (players : list Player.t) :
  (forall player, Circle.equiv (f player) (g player)) ->
  Forall2 Circle.equiv (map f players) (map g players).
Proof.
  intros Hfg. induction players as [| p ps IH]; cbn [map]; constructor.
  - apply Hfg.
  - exact IH.
Qed.

(** C10.  Without the image, [getScaleFactor] answers scale 1, width 0 and
    height 0; the offsets are then half the window's width and half its
    height, and the frame has, for each living player, a marker at
    (x + width / 2, y + height / 2) of the window. *)
Theorem markers_without_image (st : MapCanvasState) (players : list Player.t) :
  mapImage st = None ->
  let viewportWidth := Dimensions.width (dimensions st) in
  let viewportHeight := Dimensions.height (dimensions st) in
  getScaleFactor st =
  {| ScaleFactor.scale := 1; ScaleFactor.width := 0; ScaleFactor.height := 0 |}
  /\
  Transform.offsetX (transform st) == viewportWidth / 2 /\
  Transform.offsetY (transform st) == viewportHeight / 2 /\
  Forall2 Circle.equiv
    (markers (MapCanvas st players))
    (map (fun player =>
            markerAt player
              (Player.x player + viewportWidth / 2)
              (Player.y player + viewportHeight / 2))
         (filter Player.alive players)).
Proof.
  intros Himg viewportWidth viewportHeight.
  subst viewportWidth viewportHeight.
  rewrite markers_MapCanvas, (transform_awaiting st Himg).
  cbn [Transform.scale Transform.offsetX Transform.offsetY].
  split; [unfold getScaleFactor; now rewrite Himg |].
  split; [field |]. split; [field |].
  apply Forall2_map_pointwise. intros p. unfold Circle.equiv, markerAt.
  cbn [Circle.x Circle.y Circle.radius Circle.fill].
  repeat split; try reflexivity; field.
Qed.

Lemma markers_without_image_witness :
  mapImage awaiting1000x800 = None /\
  getScaleFactor awaiting1000x800 =
  {| ScaleFactor.scale := 1; ScaleFactor.width := 0; ScaleFactor.height := 0 |}
  /\
  Transform.offsetX (transform awaiting1000x800) == 1000 / 2 /\
  Transform.offsetY (transform awaiting1000x800) == 800 / 2 /\
  Forall2 Circle.equiv
    (markers (MapCanvas awaiting1000x800 (deadPlayer :: mockPlayers)))
    [ markerAt (Player.mk "1" "s1mple" 400 300 T true)
        (400 + 1000 / 2) (300 + 800 / 2);
      markerAt (Player.mk "2" "device" 450 350 CT true)
        (450 + 1000 / 2) (350 + 800 / 2) ].
Proof.
  split; [reflexivity |].
  apply (markers_without_image awaiting1000x800 (deadPlayer :: mockPlayers)).
  reflexivity.
Defined.

(** * Further properties of the components *)

(** ** The fit of a loaded image *)

Lemma Qdiv_le_pos (a b m : Q) : 0 < m -> (a / m <= b / m <-> a <= b).
Proof.
  intros Hm. split; intros H.
  - setoid_replace a with (a / m * m) by (field; lra).
    setoid_replace b with (b / m * m) by (field; lra).
    apply Qmult_le_compat_r; [exact H | lra].
  - unfold Qdiv. apply Qmult_le_compat_r; [exact H |].
    apply Qlt_le_weak, Qinv_lt_0_compat, Hm.
Qed.



Section ReadyFit.

Variable st : MapCanvasState.
Variable img : HTMLImageElement.t.
Hypothesis Himg : mapImage st = Some img.
Hypothesis Hwidth : 0 < HTMLImageElement.width img.
Hypothesis Hheight : 0 < HTMLImageElement.height img.

Let mapWidth := HTMLImageElement.width img.
Let mapHeight := HTMLImageElement.height img.
Let availableWidth := Dimensions.width (dimensions st) - 40.
Let availableHeight := Dimensions.height (dimensions st) - 40.

Lemma ready_scale :
  ScaleFactor.scale (getScaleFactor st)
  = Qmin (availableWidth / mapWidth) (availableHeight / mapHeight).
Proof. unfold getScaleFactor. now rewrite Himg. Qed.

Lemma ready_width :
  ScaleFactor.width (getScaleFactor st)
  = mapWidth * ScaleFactor.scale (getScaleFactor st).
Proof. unfold getScaleFactor. now rewrite Himg. Qed.

Lemma ready_height :
  ScaleFactor.height (getScaleFactor st)
  = mapHeight * ScaleFactor.scale (getScaleFactor st).
Proof. unfold getScaleFactor. now rewrite Himg. Qed.





Lemma ready_scale_nonneg :
  0 <= availableWidth -> 0 <= availableHeight ->
  0 <= ScaleFactor.scale (getScaleFactor st).
Proof.
  intros Haw Hah. rewrite ready_scale. apply Q.min_glb.
  - apply Qle_shift_div_l; [exact Hwidth | now rewrite Qmult_0_l].
  - apply Qle_shift_div_l; [exact Hheight | now rewrite Qmult_0_l].
Qed.





(** X6.  Once the image is loaded in a window that leaves no room on one
    axis and no less than none on the other, the scale is 0, the background
    image is 0 wide and 0 high, and all markers lie on one point, the
    centre of the window. *)
Theorem markers_collapse_without_room (players : list Player.t) :
  0 <= availableWidth -> 0 <= availableHeight ->
  availableWidth == 0 \/ availableHeight == 0 ->
  ScaleFactor.scale (getScaleFactor st) == 0 /\
  ScaleFactor.width (getScaleFactor st) == 0 /\
  ScaleFactor.height (getScaleFactor st) == 0 /\
  Forall (fun c =>
            Circle.x c == Dimensions.width (dimensions st) / 2 /\
            Circle.y c == Dimensions.height (dimensions st) / 2)
         (markers (MapCanvas st players)).
Proof.
  intros Haw Hah Hzero.
  assert (Hs : ScaleFactor.scale (getScaleFactor st) == 0).
  { apply Qle_antisym; [| now apply ready_scale_nonneg].
    rewrite ready_scale. apply Q.min_le_iff.
    destruct Hzero as [E | E]; [left | right]; rewrite E;
      unfold Qdiv; rewrite Qmult_0_l; apply Qle_refl. }
  assert (Hw : ScaleFactor.width (getScaleFactor st) == 0)
    by (rewrite ready_width, Hs; ring).
  assert (Hh : ScaleFactor.height (getScaleFactor st) == 0)
    by (rewrite ready_height, Hs; ring).
  split; [exact Hs |]. split; [exact Hw |]. split; [exact Hh |].
  rewrite markers_MapCanvas. apply Forall_map, Forall_forall.
  intros p _. unfold markerAt, transform.
  cbn [Circle.x Circle.y Transform.scale Transform.offsetX Transform.offsetY].
  rewrite Hs, Hw, Hh. split; field.
Qed.

End ReadyFit.






Lemma markers_collapse_without_room_witness :
  Dimensions.width (dimensions ready40x800) - 40 == 0 /\
  ScaleFactor.scale (getScaleFactor ready40x800) == 0 /\
  ScaleFactor.width (getScaleFactor ready40x800) == 0 /\
  ScaleFactor.height (getScaleFactor ready40x800) == 0 /\
  Forall (fun c => Circle.x c == 40 / 2 /\ Circle.y c == 800 / 2)
         (markers (MapCanvas ready40x800 mockPlayers)).
Proof.
  split; [reflexivity |].
  apply (markers_collapse_without_room ready40x800 dust2);
    first [reflexivity | discriminate | left; reflexivity].
Defined.

(** ** Markers and map positions *)

Lemma PlayerMarker_some
  (player : Player.t) (scale offsetX offsetY : Q) (c : Circle.t) :
  PlayerMarker player scale offsetX offsetY = Some (CircleNode c) ->
  Player.alive player = true /\
  c = markerAt player (Player.x player * scale + offsetX)
                      (Player.y player * scale + offsetY).
Proof.
  rewrite PlayerMarker_cases. destruct (Player.alive player); [| discriminate].
  intros E. injection E as E. now subst c.
Qed.



(** X8.  Markers keep the order of their players: of two circles drawn by
    PlayerMarker with the same props, at a scale that is not negative, the
    one whose player has the smaller x (or y) on the map has the smaller
    or equal x (or y) on the screen. *)
Theorem markers_keep_the_order_of_players
  (p q : Player.t) (scale offsetX offsetY : Q) (c d : Circle.t) :
  PlayerMarker p scale offsetX offsetY = Some (CircleNode c) ->
  PlayerMarker q scale offsetX offsetY = Some (CircleNode d) ->
  0 <= scale ->
  (Player.x p <= Player.x q -> Circle.x c <= Circle.x d) /\
  (Player.y p <= Player.y q -> Circle.y c <= Circle.y d).
Proof.
  intros Hc Hd Hs.
  apply PlayerMarker_some in Hc. destruct Hc as [_ ->].
  apply PlayerMarker_some in Hd. destruct Hd as [_ ->].
  cbn [markerAt Circle.x Circle.y]. split; intros Hle; nra.
Qed.

Lemma markers_keep_the_order_of_players_witness :
  let c := markerAt s1mple (400 * (760 / 1024) + 120)
                           (300 * (760 / 1024) + 20) in
  let d := markerAt device (450 * (760 / 1024) + 120)
                           (350 * (760 / 1024) + 20) in
  PlayerMarker s1mple (760 / 1024) 120 20 = Some (CircleNode c) /\
  PlayerMarker device (760 / 1024) 120 20 = Some (CircleNode d) /\
  0 <= 760 / 1024 /\
  Player.x s1mple <= Player.x device /\
  Player.y s1mple <= Player.y device /\
  Circle.x c <= Circle.x d /\ Circle.y c <= Circle.y d.
Proof.
  intros c d.
  assert (Hx : Player.x s1mple <= Player.x device) by discriminate.
  assert (Hy : Player.y s1mple <= Player.y device) by discriminate.
  assert (Hs : 0 <= 760 / 1024) by discriminate.
  destruct (markers_keep_the_order_of_players s1mple device (760 / 1024)
              120 20 c d eq_refl eq_refl Hs) as [Kx Ky].
  split; [reflexivity |]. split; [reflexivity |]. split; [exact Hs |].
  split; [exact Hx |]. split; [exact Hy |].
  split; [exact (Kx Hx) | exact (Ky Hy)].
Defined.

(** ** The shape of a frame *)

Section DrawnSlots.

Variable render : Player.t -> option KonvaNode.
Variable circle : Player.t -> Circle.t.
Hypothesis render_cases :
  forall player,
    render player =
    if Player.alive player then Some (CircleNode (circle player)) else None.

Lemma drawn_of_slots (players : list Player.t) :
  drawn (map render players)
  = map CircleNode (map circle (filter Player.alive players)).
Proof.
  induction players as [| p ps IH]; cbn [map filter drawn]; [reflexivity |].
  rewrite render_cases.
  destruct (Player.alive p); cbn [map]; now rewrite IH.
Qed.

End DrawnSlots.

(** X9.  A frame of MapCanvas draws the background image first, if the
    image is loaded, and then nothing but the markers: there is at most
    one image, no marker is drawn before it, and there are no more markers
    than players. *)
Theorem frame_is_image_then_markers
  (st : MapCanvasState) (players : list Player.t) :
  drawn (Stage.layer (MapCanvas st players))
  = map ImageNode (background (MapCanvas st players))
    ++ map CircleNode (markers (MapCanvas st players)) /\
  (List.length (background (MapCanvas st players)) <= 1)%nat /\
  (List.length (markers (MapCanvas st players)) <= List.length players)%nat.
Proof.
  rewrite background_MapCanvas, markers_MapCanvas.
  rewrite !List.length_map.
  pose proof (filter_length_le Player.alive players) as Hle.
  assert (Hscaled :
    forall s ox oy,
      drawn (map (fun p => PlayerMarker p s ox oy) players)
      = map CircleNode
          (map (fun p => markerAt p (Player.x p * s + ox)
                                    (Player.y p * s + oy))
               (filter Player.alive players))).
  { intros s ox oy. apply drawn_of_slots.
    intros p. apply PlayerMarker_cases. }
  unfold MapCanvas, transform.
  cbn [Stage.layer Transform.scale Transform.offsetX Transform.offsetY].
  destruct (mapImage st); cbn [drawn map app List.length];
    rewrite Hscaled; repeat split; auto.
Qed.

(** X10.  The markers MapCanvas draws for a list of players put together
    from two lists are the markers of the first followed by the markers of
    the second; the background image does not depend on the players. *)
Theorem markers_of_appended_players
  (st : MapCanvasState) (ps qs : list Player.t) :
  markers (MapCanvas st (ps ++ qs))
  = markers (MapCanvas st ps) ++ markers (MapCanvas st qs) /\
  background (MapCanvas st ps) = background (MapCanvas st qs).
Proof.
  rewrite !markers_MapCanvas, !background_MapCanvas.
  rewrite !filter_app, !map_app. repeat split.
Qed.

(** X11.  For every player, scale and offsets, the PlayerMarker with
    scaling props draws what the PlayerMarker without them draws, moved to
    x * scale + offsetX and y * scale + offsetY with radius and colour
    kept, and nothing where the other draws nothing. *)
Theorem scaled_marker_is_placed_simple_marker
  (player : Player.t) (scale offsetX offsetY : Q) :
  PlayerMarker player scale offsetX offsetY
  = placeNode scale offsetX offsetY (FrontendReact.PlayerMarker player).
Proof.
  rewrite PlayerMarker_cases, simple_PlayerMarker_cases.
  now destruct (Player.alive player).
Qed.

(** ** Colours *)

(** X12.  Two markers have the same colour exactly when their players are
    of the same team, whatever the props they are drawn with; every marker
    has radius 5, and the PlayerMarker without scaling gives a player the
    colour and radius the scaling one gives. *)
Theorem marker_colour_tells_the_team
  (p q : Player.t) (scale offsetX offsetY scale' offsetX' offsetY' : Q)
  (c d e : Circle.t) :
  PlayerMarker p scale offsetX offsetY = Some (CircleNode c) ->
  PlayerMarker q scale' offsetX' offsetY' = Some (CircleNode d) ->
  FrontendReact.PlayerMarker p = Some (CircleNode e) ->
  (Circle.fill c = Circle.fill d <-> Player.team p = Player.team q) /\
  Circle.radius c = 5 /\
  Circle.fill e = Circle.fill c /\ Circle.radius e = Circle.radius c.
Proof.
  intros Hc Hd He.
  apply PlayerMarker_some in Hc. destruct Hc as [Hp ->].
  apply PlayerMarker_some in Hd. destruct Hd as [_ ->].
  rewrite simple_PlayerMarker_cases, Hp in He. injection He as <-.
  unfold markerAt. cbn [Circle.fill Circle.radius].
  repeat split; try reflexivity.
  - destruct (Player.team p), (Player.team q); cbn; congruence.
  - intros ->. reflexivity.
Qed.

Lemma marker_colour_tells_the_team_witness :
  let c := markerAt s1mple (400 * 1 + 0) (300 * 1 + 0) in
  let d := markerAt device (450 * 2 + 7) (350 * 2 + 9) in
  let e := markerAt s1mple 400 300 in
  PlayerMarker s1mple 1 0 0 = Some (CircleNode c) /\
  PlayerMarker device 2 7 9 = Some (CircleNode d) /\
  FrontendReact.PlayerMarker s1mple = Some (CircleNode e) /\
  (Circle.fill c = Circle.fill d <-> Player.team s1mple = Player.team device)
  /\ Circle.radius c = 5 /\
  Circle.fill e = Circle.fill c /\ Circle.radius e = Circle.radius c.
Proof.
  intros c d e.
  split; [reflexivity |]. split; [reflexivity |]. split; [reflexivity |].
  apply (marker_colour_tells_the_team s1mple device 1 0 0 2 7 9 c d e);
    reflexivity.
Defined.

(** ** Events *)

Lemma run_app (st : MapCanvasState) (es fs : list Event) :
  run st (es ++ fs) = run (run st es) fs.
Proof. unfold run. apply fold_left_app. Qed.

Lemma loads_keep_dimensions (loads : list Event) (st : MapCanvasState) :
  forallb isImageReady loads = true ->
  dimensions (run st loads) = dimensions st.
Proof.
  revert st. induction loads as [| e es IH]; intros st Hall; [reflexivity |].
  cbn [forallb] in Hall. apply andb_prop in Hall. destruct Hall as [He Hes].
  destruct e as [img | w h]; [| discriminate].
  cbn [run fold_left step]. fold (run (onload img st) es).
  now rewrite IH.
Qed.

Lemma resizes_keep_image (resizes : list Event) (st : MapCanvasState) :
  forallb isResize resizes = true ->
  mapImage (run st resizes) = mapImage st.
Proof.
  revert st. induction resizes as [| e es IH]; intros st Hall; [reflexivity |].
  cbn [forallb] in Hall. apply andb_prop in Hall. destruct Hall as [He Hes].
  destruct e as [img | w h]; [discriminate |].
  cbn [run fold_left step]. fold (run (handleResize w h st) es).
  now rewrite IH.
Qed.

(** X13.  After any events the image is there exactly if it was there
    before or one of the events was an image-ready event: a resize never
    drops the image, and nothing but the image's [onload] brings it. *)
Theorem image_is_there_after_events (st : MapCanvasState) (es : list Event) :
  phase (run st es) = Ready <->
  phase st = Ready \/ existsb isImageReady es = true.
Proof.
  revert st. induction es as [| e es IH]; intros st.
  - cbn. split; [now left | intros [H | H]; [exact H | discriminate]].
  - cbn [run fold_left existsb]. fold (run (step st e) es). rewrite IH.
    destruct e as [img | w h]; cbn [isImageReady orb step].
    + split; [now right | now left].
    + unfold phase. cbn [handleResize mapImage]. reflexivity.
Qed.

(** X14.  The latest events decide the state.  After a resize followed by
    nothing but image-ready events, the window size in the state, and with
    it the size of the stage, is that of the resize, whatever came before;
    after an image-ready event followed by nothing but resizes, the image
    in the state, and the one drawn, is that of the event. *)
Theorem latest_events_decide
  (st : MapCanvasState) (es loads resizes : list Event)
  (w h : Q) (img : HTMLImageElement.t) (players : list Player.t) :
  forallb isImageReady loads = true ->
  forallb isResize resizes = true ->
  let resized := run st (es ++ Resize w h :: loads) in
  let loaded := run st (es ++ ImageReady img :: resizes) in
  dimensions resized = Dimensions.mk w h /\
  Stage.width (MapCanvas resized players) = Some w /\
  Stage.height (MapCanvas resized players) = Some h /\
  mapImage loaded = Some img /\
  map Image.image (background (MapCanvas loaded players)) = [img].
Proof.
  intros Hloads Hresizes resized loaded.
  assert (Hd : dimensions resized = Dimensions.mk w h).
  { unfold resized. rewrite run_app. cbn [run fold_left step].
    fold (run (handleResize w h (run st es)) loads).
    now rewrite loads_keep_dimensions. }
  assert (Hi : mapImage loaded = Some img).
  { unfold loaded. rewrite run_app. cbn [run fold_left step].
    fold (run (onload img (run st es)) resizes).
    now rewrite resizes_keep_image. }
  split; [exact Hd |].
  unfold MapCanvas at 1 2. cbn [Stage.width Stage.height]. rewrite Hd.
  split; [reflexivity |]. split; [reflexivity |]. split; [exact Hi |].
  rewrite background_MapCanvas, Hi. reflexivity.
Qed.

Lemma latest_events_decide_witness :
  let resized :=
    run awaiting1000x800
      ([Resize 640 480; ImageReady dust2_webp]
       ++ Resize 1200 900 :: [ImageReady dust2]) in
  let loaded :=
    run awaiting1000x800
      ([Resize 640 480; ImageReady dust2_webp]
       ++ ImageReady dust2 :: [Resize 1200 900; Resize 20 800]) in
  dimensions resized = Dimensions.mk 1200 900 /\
  Stage.width (MapCanvas resized mockPlayers) = Some 1200 /\
  Stage.height (MapCanvas resized mockPlayers) = Some 900 /\
  mapImage loaded = Some dust2 /\
  map Image.image (background (MapCanvas loaded mockPlayers)) = [dust2].
Proof.
  apply (latest_events_decide awaiting1000x800
           [Resize 640 480; ImageReady dust2_webp]
           [ImageReady dust2] [Resize 1200 900; Resize 20 800]
           1200 900 dust2 mockPlayers); reflexivity.
Defined.

(** ** The fit under a change of window or of image *)

(** X15.  With the same loaded image, a window at least as wide and at
    least as high gives a scale, a width and a height of the fit that are
    at least as large: enlarging the window never shrinks the map. *)
Theorem larger_window_never_shrinks_the_fit
  (st st' : MapCanvasState) (img : HTMLImageElement.t) :
  mapImage st = Some img -> mapImage st' = Some img ->
  0 < HTMLImageElement.width img -> 0 < HTMLImageElement.height img ->
  Dimensions.width (dimensions st) <= Dimensions.width (dimensions st') ->
  Dimensions.height (dimensions st) <= Dimensions.height (dimensions st') ->
  ScaleFactor.scale (getScaleFactor st)
  <= ScaleFactor.scale (getScaleFactor st') /\
  ScaleFactor.width (getScaleFactor st)
  <= ScaleFactor.width (getScaleFactor st') /\
  ScaleFactor.height (getScaleFactor st)
  <= ScaleFactor.height (getScaleFactor st').
Proof.
  intros Hst Hst' Hw Hh Hvw Hvh.
  assert (Hs : ScaleFactor.scale (getScaleFactor st)
               <= ScaleFactor.scale (getScaleFactor st')).
  { rewrite (ready_scale st img Hst), (ready_scale st' img Hst').
    apply Q.min_le_compat; (apply Qdiv_le_pos; [assumption | lra]). }
  split; [exact Hs |].
  rewrite (ready_width st img Hst), (ready_width st' img Hst').
  rewrite (ready_height st img Hst), (ready_height st' img Hst').
  split; apply Qmult_le_l; assumption.
Qed.

Lemma larger_window_never_shrinks_the_fit_witness :
  Dimensions.width (dimensions ready1000x800)
  <= Dimensions.width (dimensions ready1200x900) /\
  Dimensions.height (dimensions ready1000x800)
  <= Dimensions.height (dimensions ready1200x900) /\
  ScaleFactor.scale (getScaleFactor ready1000x800)
  <= ScaleFactor.scale (getScaleFactor ready1200x900) /\
  ScaleFactor.width (getScaleFactor ready1000x800)
  <= ScaleFactor.width (getScaleFactor ready1200x900) /\
  ScaleFactor.height (getScaleFactor ready1000x800)
  <= ScaleFactor.height (getScaleFactor ready1200x900).
Proof.
  split; [discriminate |]. split; [discriminate |].
  apply (larger_window_never_shrinks_the_fit
           ready1000x800 ready1200x900 dust2);
    first [reflexivity | discriminate].
Defined.




(** ** Players on and off the map *)


